(** * The GPT Researcher MCP shim (mcp-servers/gpt-researcher-mcp.py)

    The module imports [os] and [GPTResearcher], defines one coroutine
    function [research] and, when run as a script, prints a start-up line.
    Everything the module does to the outside goes through the import
    system, the class bound to the name [GPTResearcher], the objects that
    class hands out, and the built-in [print] with the standard output
    behind it.  None of these is part of the repository, so they are an
    environment that answers the actions the code performs; the code
    itself is written in a small monad that threads the environment's
    world, stops at the first exception and keeps a log of every action
    with its answer. *)

From Stdlib Require Import String List ZArith Lia Bool.
From ExtLib Require Import Structures.Monad.
Import ListNotations.
Import MonadNotation.

Local Open Scope string_scope.
Local Open Scope list_scope.
Local Open Scope monad_scope.

(** ** Python values *)

(** Objects that live on the heap (class instances, coroutine objects,
    module objects, containers, most exception instances) are references.
    Two kinds of exception instance are told apart because the interpreter
    does: instances of [StopIteration] (or of a subclass), and the
    [RuntimeError] the interpreter itself makes when a [StopIteration]
    tries to leave a coroutine, with that [StopIteration] as its cause. *)
Inductive value : Type :=
| VNone
| VBool (b : bool)
| VInt (n : Z)
| VStr (s : string)
| VRef (addr : nat)
| VStopIteration (payload : value)
| VRuntimeError (message : string) (cause : value).

Definition is_text (v : value) : bool :=
  match v with
  | VStr _ => true
  | _ => false
  end.

Definition is_stop_iteration (v : value) : bool :=
  match v with
  | VStopIteration _ => true
  | _ => false
  end.

(** Keyword arguments of a call, in the order they are written. *)
Definition kwargs : Type := list (string * value).

(** ** Outcomes, actions and the log *)

(** What an evaluation ends in: a value, an exception that is raised, or
    nothing at all because the operation never completes. *)
Inductive result (A : Type) : Type :=
| Returned (a : A)
| Raised (exc : value)
| Hung.

Arguments Returned {A} a.
Arguments Raised {A} exc.
Arguments Hung {A}.

(** The things the module asks of code it does not contain. *)
Inductive action : Type :=
| ImportModule (module : string)
| ImportFrom (module name : string)
| Call (callee : string) (args : list value) (kw : kwargs)
| CallMethod (receiver : value) (method : string) (args : list value) (kw : kwargs)
| Await (awaitable : value)
| Print (text : string).

Inductive event : Type :=
| Performed (a : action) (r : result value).

(** The outcome of running a piece of code from a world. *)
Record run (World A : Type) : Type := Run {
  outcome : result A;
  world_after : World;
  log : list event
}.

Arguments Run {World A} outcome world_after log.
Arguments outcome {World A} r.
Arguments world_after {World A} r.
Arguments log {World A} r.

Definition M (World A : Type) : Type := World -> run World A.

Definition ret_M {World A : Type} (a : A) : M World A :=
  fun w => Run (Returned a) w [].

(** Sequencing: the rest runs only after a normal return; an exception or
    a hang ends the whole computation there. *)
Definition bind_M {World A B : Type} (m : M World A) (f : A -> M World B)
  : M World B :=
  fun w =>
    let r := m w in
    match outcome r with
    | Returned a =>
        let r' := f a (world_after r) in
        Run (outcome r') (world_after r') (log r ++ log r')
    | Raised exc => Run (Raised exc) (world_after r) (log r)
    | Hung => Run Hung (world_after r) (log r)
    end.

#[global] Instance Monad_M {World : Type} : Monad (M World) :=
  {| ret := @ret_M World; bind := @bind_M World |}.

(** An exception on its way out of a coroutine: a [StopIteration] does not
    leave; the interpreter raises
    [RuntimeError("coroutine raised StopIteration")] from it instead.
    Every other exception leaves as it is. *)
Definition leaving_coroutine (exc : value) : value :=
  if is_stop_iteration exc
  then VRuntimeError "coroutine raised StopIteration" exc
  else exc.

Definition coroutine_result {A : Type} (r : result A) : result A :=
  match r with
  | Raised exc => Raised (leaving_coroutine exc)
  | _ => r
  end.

(** The body of an [async def], run as the coroutine it belongs to. *)
Definition coroutine {World A : Type} (body : M World A) : M World A :=
  fun w =>
    let r := body w in
    Run (coroutine_result (outcome r)) (world_after r) (log r).

(** The outcome of an expression statement: the value is dropped. *)
Definition discard {A : Type} (r : result A) : result unit :=
  match r with
  | Returned _ => Returned tt
  | Raised exc => Raised exc
  | Hung => Hung
  end.

(** ** Reading a log *)

(** The texts the code passed to [print], whatever became of them. *)
Fixpoint print_calls (l : list event) : list string :=
  match l with
  | [] => []
  | Performed (Print text) _ :: l' => text :: print_calls l'
  | _ :: l' => print_calls l'
  end.

(** The recorded calls of global names: callee, positional and keyword
    arguments. *)
Fixpoint calls (l : list event) : list (string * list value * kwargs) :=
  match l with
  | [] => []
  | Performed (Call callee args kw) _ :: l' => (callee, args, kw) :: calls l'
  | _ :: l' => calls l'
  end.

(** The awaitables that were awaited. *)
Fixpoint awaits (l : list event) : list value :=
  match l with
  | [] => []
  | Performed (Await aw) _ :: l' => aw :: awaits l'
  | _ :: l' => awaits l'
  end.

(** The method calls: receiver and method name. *)
Fixpoint method_calls (l : list event) : list (value * string) :=
  match l with
  | [] => []
  | Performed (CallMethod recv meth _ _) _ :: l' => (recv, meth) :: method_calls l'
  | _ :: l' => method_calls l'
  end.

(** An event that only running [research] produces. *)
Definition is_research_event (ev : event) : bool :=
  match ev with
  | Performed (Call _ _ _) _
  | Performed (CallMethod _ _ _ _) _
  | Performed (Await _) _ => true
  | _ => false
  end.

(** Two answers that differ at most in the identity of the object they
    return. *)
Definition alike (r1 r2 : result value) : Prop :=
  match r1, r2 with
  | Returned _, Returned _ => True
  | Raised e1, Raised e2 => e1 = e2
  | Hung, Hung => True
  | _, _ => False
  end.

(** ** The module *)

Section Shim.

Context {World : Type}.

(** The environment: how the import system, the class [GPTResearcher], the
    objects it hands out (their methods, their awaitables) and [print]
    answer.  An await that is cancelled or timed out by the caller shows
    as the await raising the exception thrown into it. *)
Variable env : action -> World -> result value * World.

(** One action: ask the environment, log the action with its answer. *)
Definition perform (a : action) : M World value :=
  fun w =>
    let (r, w') := env a w in
    Run r w' [Performed a r].

Definition import (module : string) : M World value :=
  perform (ImportModule module).

Definition import_from (module name : string) : M World value :=
  perform (ImportFrom module name).

Definition call (callee : string) (args : list value) (kw : kwargs)
  : M World value :=
  perform (Call callee args kw).

Definition call_method (receiver : value) (method : string)
    (args : list value) (kw : kwargs) : M World value :=
  perform (CallMethod receiver method args kw).

Definition await (awaitable : value) : M World value :=
  perform (Await awaitable).

(** [print(text)]: the built-in writes to whatever [sys.stdout] is at the
    time; it can raise (a closed or failing stream) and it can write
    nothing (no stream), so what it does is the environment's answer. *)
Definition print (text : string) : M World value :=
  perform (Print text).

(** [async def research(query)]: what runs when the coroutine that
    [research(query)] creates is driven. *)
Definition research (query : value) : M World value :=
  coroutine
    (researcher <- call "GPTResearcher" []
                     [("query", query); ("report_type", VStr "research_report")] ;;
     report <- (aw <- call_method researcher "conduct_research" [] [] ;;
                await aw) ;;
     ret report).

(** [if __name__ == "__main__": print(...)] *)
Definition main_block (name : string) : M World unit :=
  if String.eqb name "__main__"
  then (_ <- print "GPT Researcher MCP Server started" ;; ret tt)
  else ret tt.

(** The module body, top to bottom, with [__name__] as the import system
    set it.  The [async def] statement only binds the name [research]. *)
Definition module_body (name : string) : M World unit :=
  _ <- import "os" ;;
  _ <- import_from "gpt_researcher" "GPTResearcher" ;;
  main_block name.

End Shim.

(** The two actions of [research] before the await. *)
Definition construction (query : value) : action :=
  Call "GPTResearcher" [] [("query", query); ("report_type", VStr "research_report")].

Definition start (researcher : value) : action :=
  CallMethod researcher "conduct_research" [] [].

(** The one action of the entry-point block. *)
Definition startup : action := Print "GPT Researcher MCP Server started".

(** Two environments, each from its own world, answer one invocation for
    [query] the same way: step by step the answers agree, up to the
    identity of the objects handed out, and the awaited results are equal. *)
Definition same_behaviour {W1 W2 : Type}
    (env1 : action -> W1 -> result value * W1) (w1 : W1)
    (env2 : action -> W2 -> result value * W2) (w2 : W2)
    (query : value) : Prop :=
  let c1 := env1 (construction query) w1 in
  let c2 := env2 (construction query) w2 in
  alike (fst c1) (fst c2) /\
  forall o1 o2, fst c1 = Returned o1 -> fst c2 = Returned o2 ->
    let m1 := env1 (start o1) (snd c1) in
    let m2 := env2 (start o2) (snd c2) in
    alike (fst m1) (fst m2) /\
    forall a1 a2, fst m1 = Returned a1 -> fst m2 = Returned a2 ->
      fst (env1 (Await a1) (snd m1)) = fst (env2 (Await a2) (snd m2)).

(** Every run of [research] has one of five shapes, by where the
    dependency stops answering with a value. *)
Inductive research_run {World : Type}
    (env : action -> World -> result value * World)
    (query : value) (w : World) : run World value -> Prop :=
| construct_raised exc w1 :
    env (construction query) w = (Raised exc, w1) ->
    research_run env query w
      (Run (Raised (leaving_coroutine exc)) w1
         [Performed (construction query) (Raised exc)])
| construct_hung w1 :
    env (construction query) w = (Hung, w1) ->
    research_run env query w
      (Run Hung w1 [Performed (construction query) Hung])
| start_raised obj w1 exc w2 :
    env (construction query) w = (Returned obj, w1) ->
    env (start obj) w1 = (Raised exc, w2) ->
    research_run env query w
      (Run (Raised (leaving_coroutine exc)) w2
         [Performed (construction query) (Returned obj);
          Performed (start obj) (Raised exc)])
| start_hung obj w1 w2 :
    env (construction query) w = (Returned obj, w1) ->
    env (start obj) w1 = (Hung, w2) ->
    research_run env query w
      (Run Hung w2
         [Performed (construction query) (Returned obj);
          Performed (start obj) Hung])
| awaited obj w1 aw w2 r w3 :
    env (construction query) w = (Returned obj, w1) ->
    env (start obj) w1 = (Returned aw, w2) ->
    env (Await aw) w2 = (r, w3) ->
    research_run env query w
      (Run (coroutine_result r) w3
         [Performed (construction query) (Returned obj);
          Performed (start obj) (Returned aw);
          Performed (Await aw) r]).

(** An invocation constructs its own dependency object: the construction
    is its first action, and every method it calls is called on the object
    that this construction returned. *)
Definition constructs_afresh {World : Type}
    (env : action -> World -> result value * World)
    (query : value) (w : World) : Prop :=
  (exists answer rest,
     log (research env query w)
     = Performed (construction query) answer :: rest)
  /\ forall receiver method,
       In (receiver, method) (method_calls (log (research env query w))) ->
       fst (env (construction query) w) = Returned receiver.

(** An invocation goes straight to the dependency: its first action is the
    construction, put to the environment in the world the invocation
    started from, and what follows depends on the environment's answer.
    If an object came back, the next action is the call of
    [conduct_research] on it, put to the environment in the world the
    constructor left; if none came back, the invocation is over, in the
    world the constructor left. *)
Definition begins_with_construction {World : Type}
    (env : action -> World -> result value * World)
    (query : value) (w : World) : Prop :=
  exists rest,
    log (research env query w)
    = Performed (construction query) (fst (env (construction query) w)) :: rest
    /\ (forall obj,
          fst (env (construction query) w) = Returned obj ->
          exists rest',
            rest
            = Performed (start obj)
                (fst (env (start obj) (snd (env (construction query) w))))
              :: rest')
    /\ ((forall obj, fst (env (construction query) w) <> Returned obj) ->
        rest = []
        /\ world_after (research env query w)
           = snd (env (construction query) w)).

(** The dependency raised [exc] in answer to one of the three steps of an
    invocation for [query] from [w]. *)
Definition dependency_raised {World : Type}
    (env : action -> World -> result value * World)
    (query : value) (w : World) (exc : value) : Prop :=
  (exists w1, env (construction query) w = (Raised exc, w1))
  \/ (exists obj w1 w2,
        env (construction query) w = (Returned obj, w1)
        /\ env (start obj) w1 = (Raised exc, w2))
  \/ (exists obj w1 aw w2 w3,
        env (construction query) w = (Returned obj, w1)
        /\ env (start obj) w1 = (Returned aw, w2)
        /\ env (Await aw) w2 = (Raised exc, w3)).

(** ** Stand-ins for the dependency *)

(** A dependency that answers from a script: one fixed answer for the
    constructor, one for [conduct_research()], one for the await.  Imports
    and [print] succeed. *)
Module Scripted.

Definition env (on_construct on_start on_await : result value)
  : action -> unit -> result value * unit :=
  fun a w =>
    match a with
    | ImportModule _ | ImportFrom _ _ => (Returned (VRef 0), w)
    | Call _ _ _ => (on_construct, w)
    | CallMethod _ _ _ _ => (on_start, w)
    | Await _ => (on_await, w)
    | Print _ => (Returned VNone, w)
    end.

(** The import system of a machine where [gpt_researcher] is missing:
    the second import raises. *)
Definition env_missing_package (exc : value)
  : action -> unit -> result value * unit :=
  fun a w =>
    match a with
    | ImportModule _ => (Returned (VRef 0), w)
    | ImportFrom _ _ => (Raised exc, w)
    | Print _ => (Returned VNone, w)
    | _ => (Hung, w)
    end.

End Scripted.

(** A dependency that records its construction arguments: the world is the
    list of keyword arguments of the objects built so far, object [n] is
    [VRef n], its coroutine is [VRef n] too, and awaiting it gives
    ["REPORT:"] followed by the query the object was built with. *)
Module StandIn.

Definition world : Type := list kwargs.

Fixpoint lookup (key : string) (kw : kwargs) : option value :=
  match kw with
  | [] => None
  | (k, v) :: kw' => if String.eqb k key then Some v else lookup key kw'
  end.

Definition type_error : value := VRef 1000.

Definition report_of (kw : kwargs) : result value :=
  match lookup "query" kw with
  | Some (VStr q) => Returned (VStr ("REPORT:" ++ q))
  | _ => Raised type_error
  end.

Definition env : action -> world -> result value * world :=
  fun a w =>
    match a with
    | ImportModule _ | ImportFrom _ _ => (Returned (VRef 0), w)
    | Call _ _ kw => (Returned (VRef (length w)), w ++ [kw])
    | CallMethod (VRef n) _ _ _ => (Returned (VRef n), w)
    | CallMethod _ _ _ _ => (Raised type_error, w)
    | Await (VRef n) =>
        match nth_error w n with
        | Some kw => (report_of kw, w)
        | None => (Raised type_error, w)
        end
    | Await _ => (Raised type_error, w)
    | Print _ => (Returned VNone, w)
    end.

End StandIn.

(** ** Runs of [research], case by case *)

Ltac unfold_shim :=
  unfold research, coroutine, module_body, main_block, import, import_from,
    call, call_method, await, print, perform, construction, start, startup
    in *;
  cbn [bind ret Monad_M] in *;
  unfold bind_M, ret_M in *.

Section Runs.

Context {World : Type}.
Variable env : action -> World -> result value * World.

Lemma research_construct_raises query w exc w1 :
  env (construction query) w = (Raised exc, w1) ->
  research env query w
  = Run (Raised (leaving_coroutine exc)) w1
      [Performed (construction query) (Raised exc)].
Proof.
  intros Hc. unfold_shim. rewrite Hc. reflexivity.
Qed.

Lemma research_construct_hangs query w w1 :
  env (construction query) w = (Hung, w1) ->
  research env query w
  = Run Hung w1 [Performed (construction query) Hung].
Proof.
  intros Hc. unfold_shim. rewrite Hc. reflexivity.
Qed.

Lemma research_start_raises query w obj w1 exc w2 :
  env (construction query) w = (Returned obj, w1) ->
  env (start obj) w1 = (Raised exc, w2) ->
  research env query w
  = Run (Raised (leaving_coroutine exc)) w2
      [Performed (construction query) (Returned obj);
       Performed (start obj) (Raised exc)].
Proof.
  intros Hc Hs. unfold_shim. rewrite Hc. cbn. rewrite Hs. reflexivity.
Qed.

Lemma research_start_hangs query w obj w1 w2 :
  env (construction query) w = (Returned obj, w1) ->
  env (start obj) w1 = (Hung, w2) ->
  research env query w
  = Run Hung w2
      [Performed (construction query) (Returned obj);
       Performed (start obj) Hung].
Proof.
  intros Hc Hs. unfold_shim. rewrite Hc. cbn. rewrite Hs. reflexivity.
Qed.

Lemma research_awaited query w obj w1 aw w2 r w3 :
  env (construction query) w = (Returned obj, w1) ->
  env (start obj) w1 = (Returned aw, w2) ->
  env (Await aw) w2 = (r, w3) ->
  research env query w
  = Run (coroutine_result r) w3
      [Performed (construction query) (Returned obj);
       Performed (start obj) (Returned aw);
       Performed (Await aw) r].
Proof.
  intros Hc Hs Ha. unfold_shim. rewrite Hc. cbn. rewrite Hs. cbn.
  rewrite Ha. destruct r; reflexivity.
Qed.

End Runs.

Lemma research_run_total {World : Type}
    (env : action -> World -> result value * World) query w :
  research_run env query w (research env query w).
Proof.
  destruct (env (construction query) w) as [rc w1] eqn:Hc.
  destruct rc as [obj | exc | ].
  - destruct (env (start obj) w1) as [rs w2] eqn:Hs.
    destruct rs as [aw | exc | ].
    + destruct (env (Await aw) w2) as [r w3] eqn:Ha.
      rewrite (research_awaited env _ _ _ _ _ _ _ _ Hc Hs Ha).
      eapply awaited; eassumption.
    + rewrite (research_start_raises env _ _ _ _ _ _ Hc Hs).
      eapply start_raised; eassumption.
    + rewrite (research_start_hangs env _ _ _ _ _ Hc Hs).
      eapply start_hung; eassumption.
  - rewrite (research_construct_raises env _ _ _ _ Hc).
    apply construct_raised; assumption.
  - rewrite (research_construct_hangs env _ _ _ Hc).
    apply construct_hung; assumption.
Qed.

Lemma research_begins_with_construction {World : Type}
    (env : action -> World -> result value * World) query w :
  begins_with_construction env query w.
Proof.
  unfold begins_with_construction.
  destruct (research_run_total env query w) as
    [exc0 w1 Hc | w1 Hc | obj w1 exc0 w2 Hc Hs | obj w1 w2 Hc Hs
    | obj w1 aw w2 r w3 Hc Hs Ha]; rewrite Hc; cbn [fst snd log world_after];
    eexists; (split; [ reflexivity | split ]).
  - intros obj Hobj. discriminate Hobj.
  - intros _. split; reflexivity.
  - intros obj Hobj. discriminate Hobj.
  - intros _. split; reflexivity.
  - intros obj' Hobj. injection Hobj as <-. rewrite Hs. eexists. reflexivity.
  - intros Hno. exfalso. apply (Hno obj). reflexivity.
  - intros obj' Hobj. injection Hobj as <-. rewrite Hs. eexists. reflexivity.
  - intros Hno. exfalso. apply (Hno obj). reflexivity.
  - intros obj' Hobj. injection Hobj as <-. rewrite Hs. eexists. reflexivity.
  - intros Hno. exfalso. apply (Hno obj). reflexivity.
Qed.


(** ** What [research] hands to the dependency *)

(** C1. For every query string [Q], an invocation of [research] constructs
    the dependency with exactly the keyword arguments [query=Q] and
    [report_type="research_report"] and no positional argument: that
    construction is the first action, it is put to the dependency in the
    world the invocation started from, the dependency's own answer and the
    world it leaves are what the invocation goes on with, and no other
    global name is called.  Run against the stand-in that records its
    construction arguments, starting from an empty record, the record
    afterwards holds exactly one entry, [query=Q] and
    [report_type="research_report"]. *)
Theorem research_constructs_with_query {World : Type}
    (env : action -> World -> result value * World) (Q : string) (w : World) :
  begins_with_construction env (VStr Q) w
  /\ construction (VStr Q)
     = Call "GPTResearcher" []
         [("query", VStr Q); ("report_type", VStr "research_report")]
  /\ calls (log (research env (VStr Q) w))
     = [("GPTResearcher", [],
         [("query", VStr Q); ("report_type", VStr "research_report")])]
  /\ world_after (research StandIn.env (VStr Q) [])
     = [[("query", VStr Q); ("report_type", VStr "research_report")]].
Proof.
  split; [ apply research_begins_with_construction | ].
  split; [ reflexivity | ].
  split; [ | reflexivity ].
  destruct (research_run_total env (VStr Q) w); reflexivity.
Qed.

(** C6. [research] does not validate the query.  For every query string
    [Q], the empty one included, the invocation goes straight to the
    dependency: its first action is the construction with [Q] as given,
    put to the dependency in the world the invocation started from, so
    nothing is raised before the dependency is reached.  And whenever an
    exception leaves the invocation, the dependency raised one in answer
    to the construction, to the call of [conduct_research] or to the
    await, and the exception that leaves is that one as it leaves a
    coroutine. *)
Theorem research_does_not_validate {World : Type}
    (env : action -> World -> result value * World) (Q : string) (w : World) :
  begins_with_construction env (VStr Q) w
  /\ (forall exc,
        outcome (research env (VStr Q) w) = Raised exc ->
        exists raised,
          dependency_raised env (VStr Q) w raised
          /\ exc = leaving_coroutine raised).
Proof.
  split; [ apply research_begins_with_construction | ].
  unfold dependency_raised.
  destruct (research_run_total env (VStr Q) w) as
    [exc0 w1 Hc | w1 Hc | obj w1 exc0 w2 Hc Hs | obj w1 w2 Hc Hs
    | obj w1 aw w2 r w3 Hc Hs Ha]; cbn [outcome]; intros exc Hexc;
    try discriminate Hexc.
  - injection Hexc as <-. exists exc0. split; [ | reflexivity ].
    left. exists w1. exact Hc.
  - injection Hexc as <-. exists exc0. split; [ | reflexivity ].
    right. left. exists obj, w1, w2. split; assumption.
  - destruct r as [v | exc1 | ]; try discriminate Hexc.
    injection Hexc as <-. exists exc1. split; [ | reflexivity ].
    right. right. exists obj, w1, aw, w2, w3. repeat split; assumption.
Qed.

(** The empty query reaches the constructor of the recording stand-in,
    which answers with its first object. *)
Lemma research_empty_query_reaches_dependency :
  exists rest,
    log (research StandIn.env (VStr "") [])
    = Performed (construction (VStr "")) (Returned (VRef 0)) :: rest.
Proof.
  destruct (proj1 (research_does_not_validate StandIn.env "" []))
    as [rest [Hlog _]].
  exists rest. exact Hlog.
Defined.

(** ** What [research] gives back *)

(** C2. Whatever value [R] the awaited operation of the dependency
    returns, the invocation returns [R]. *)
Theorem research_returns_report {World : Type}
    (env : action -> World -> result value * World)
    (query : value) (w : World) obj w1 aw w2 (R : value) w3 :
  env (construction query) w = (Returned obj, w1) ->
  env (start obj) w1 = (Returned aw, w2) ->
  env (Await aw) w2 = (Returned R, w3) ->
  outcome (research env query w) = Returned R.
Proof.
  intros Hc Hs Ha.
  rewrite (research_awaited env _ _ _ _ _ _ _ _ Hc Hs Ha). reflexivity.
Qed.

(** The scenario of the specification: for the query
    ["climate policy 2030"] the stand-in returns
    ["REPORT:climate policy 2030"], and so does [research]. *)
Lemma research_climate_policy_scenario :
  StandIn.env (Await (VRef 0))
    [[("query", VStr "climate policy 2030");
      ("report_type", VStr "research_report")]]
  = (Returned (VStr "REPORT:climate policy 2030"),
     [[("query", VStr "climate policy 2030");
       ("report_type", VStr "research_report")]])
  /\ outcome (research StandIn.env (VStr "climate policy 2030") [])
     = Returned (VStr "REPORT:climate policy 2030").
Proof.
  split.
  - reflexivity.
  - apply (research_returns_report StandIn.env (VStr "climate policy 2030") []
             (VRef 0)
             [[("query", VStr "climate policy 2030");
               ("report_type", VStr "research_report")]]
             (VRef 0)
             [[("query", VStr "climate policy 2030");
               ("report_type", VStr "research_report")]]
             (VStr "REPORT:climate policy 2030")
             [[("query", VStr "climate policy 2030");
               ("report_type", VStr "research_report")]]);
      reflexivity.
Defined.

(** C8. [research] neither checks nor converts what the dependency
    returns.  For every value [v] of any class, text or not, that the
    awaited operation returns, the invocation ends right after the await
    with [v] itself as its result: the whole run is the three actions and
    the world the dependency left. *)
Theorem research_result_not_converted {World : Type}
    (env : action -> World -> result value * World)
    (query : value) (w : World) obj w1 aw w2 (v : value) w3 :
  env (construction query) w = (Returned obj, w1) ->
  env (start obj) w1 = (Returned aw, w2) ->
  env (Await aw) w2 = (Returned v, w3) ->
  research env query w
  = Run (Returned v) w3
      [Performed (construction query) (Returned obj);
       Performed (start obj) (Returned aw);
       Performed (Await aw) (Returned v)].
Proof.
  intros Hc Hs Ha. exact (research_awaited env _ _ _ _ _ _ _ _ Hc Hs Ha).
Qed.

(** A dependency whose operation returns the integer 42: the result of
    [research] is that integer, not a text. *)
Lemma research_returns_integer_unchanged :
  is_text (VInt 42) = false
  /\ research (Scripted.env (Returned (VRef 1)) (Returned (VRef 2))
                 (Returned (VInt 42)))
       (VStr "climate policy 2030") tt
     = Run (Returned (VInt 42)) tt
         [Performed (construction (VStr "climate policy 2030")) (Returned (VRef 1));
          Performed (start (VRef 1)) (Returned (VRef 2));
          Performed (Await (VRef 2)) (Returned (VInt 42))].
Proof.
  split.
  - reflexivity.
  - apply (research_result_not_converted
             (Scripted.env (Returned (VRef 1)) (Returned (VRef 2))
                (Returned (VInt 42)))
             (VStr "climate policy 2030") tt (VRef 1) tt (VRef 2) tt
             (VInt 42) tt); reflexivity.
Defined.

(** ** Failures *)

(** C3, as stated, fails: [research] is a coroutine, and a
    [StopIteration] never leaves a coroutine.  When the awaited operation
    of the dependency raises [StopIteration], the caller of [research]
    gets a new [RuntimeError] with that [StopIteration] as its cause, not
    the failure the dependency raised. *)
Lemma research_replaces_stop_iteration :
  outcome (research (Scripted.env (Returned (VRef 1)) (Returned (VRef 2))
                       (Raised (VStopIteration VNone)))
             (VStr "climate policy 2030") tt)
  = Raised (VRuntimeError "coroutine raised StopIteration"
              (VStopIteration VNone))
  /\ outcome (research (Scripted.env (Returned (VRef 1)) (Returned (VRef 2))
                          (Raised (VStopIteration VNone)))
                (VStr "climate policy 2030") tt)
     <> Raised (VStopIteration VNone).
Proof.
  split.
  - reflexivity.
  - cbn. discriminate.
Qed.

(** C3, amended.  A failure of the dependency ends the invocation where
    it is raised, in the world the dependency left, and reaches the caller
    as it leaves a coroutine: unchanged when it is not a [StopIteration],
    and as the interpreter's [RuntimeError] made from it when it is one.
    This holds for the awaited operation, for the call of
    [conduct_research] and for the construction; [research] catches and
    wraps nothing itself. *)
Theorem research_propagates_failure {World : Type}
    (env : action -> World -> result value * World)
    (query : value) (w : World) (exc : value) :
  (is_stop_iteration exc = false -> leaving_coroutine exc = exc)
  /\ (is_stop_iteration exc = true ->
      leaving_coroutine exc
      = VRuntimeError "coroutine raised StopIteration" exc)
  /\ (forall obj w1 aw w2 w3,
        env (construction query) w = (Returned obj, w1) ->
        env (start obj) w1 = (Returned aw, w2) ->
        env (Await aw) w2 = (Raised exc, w3) ->
        research env query w
        = Run (Raised (leaving_coroutine exc)) w3
            [Performed (construction query) (Returned obj);
             Performed (start obj) (Returned aw);
             Performed (Await aw) (Raised exc)])
  /\ (forall obj w1 w2,
        env (construction query) w = (Returned obj, w1) ->
        env (start obj) w1 = (Raised exc, w2) ->
        research env query w
        = Run (Raised (leaving_coroutine exc)) w2
            [Performed (construction query) (Returned obj);
             Performed (start obj) (Raised exc)])
  /\ (forall w1,
        env (construction query) w = (Raised exc, w1) ->
        research env query w
        = Run (Raised (leaving_coroutine exc)) w1
            [Performed (construction query) (Raised exc)]).
Proof.
  split; [ | split; [ | split; [ | split ] ] ].
  - intros Hno. unfold leaving_coroutine. rewrite Hno. reflexivity.
  - intros Hyes. unfold leaving_coroutine. rewrite Hyes. reflexivity.
  - intros obj w1 aw w2 w3 Hc Hs Ha.
    exact (research_awaited env _ _ _ _ _ _ _ _ Hc Hs Ha).
  - intros obj w1 w2 Hc Hs.
    exact (research_start_raises env _ _ _ _ _ _ Hc Hs).
  - intros w1 Hc. exact (research_construct_raises env _ _ _ _ Hc).
Qed.

(** A dependency whose awaited operation raises the exception object 7,
    which is no [StopIteration]: the caller gets the object 7. *)
Lemma research_failing_operation_scenario :
  research (Scripted.env (Returned (VRef 1)) (Returned (VRef 2))
              (Raised (VRef 7)))
    (VStr "climate policy 2030") tt
  = Run (Raised (VRef 7)) tt
      [Performed (construction (VStr "climate policy 2030")) (Returned (VRef 1));
       Performed (start (VRef 1)) (Returned (VRef 2));
       Performed (Await (VRef 2)) (Raised (VRef 7))].
Proof.
  apply (proj1 (proj2 (proj2
           (research_propagates_failure
              (Scripted.env (Returned (VRef 1)) (Returned (VRef 2))
                 (Raised (VRef 7)))
              (VStr "climate policy 2030") tt (VRef 7))))
           (VRef 1) tt (VRef 2) tt tt); reflexivity.
Defined.

(** ** How often the dependency is used *)

(** The log of an invocation is never longer than three actions. *)
Lemma research_log_short {World : Type}
    (env : action -> World -> result value * World) query w :
  length (log (research env query w)) <= 3.
Proof.
  destruct (research_run_total env query w); cbn; lia.
Qed.




(** ** Termination *)

(** C10. [research] is straight-line code: no loop, no recursion, at most
    three actions.  So an invocation completes, by returning or by
    raising, whenever the constructor it calls completes and, where they
    are reached, the call of [conduct_research] and the await complete. *)
Theorem research_terminates {World : Type}
    (env : action -> World -> result value * World) (query : value) (w : World) :
  fst (env (construction query) w) <> Hung ->
  (forall obj w1,
     env (construction query) w = (Returned obj, w1) ->
     fst (env (start obj) w1) <> Hung) ->
  (forall obj w1 aw w2,
     env (construction query) w = (Returned obj, w1) ->
     env (start obj) w1 = (Returned aw, w2) ->
     fst (env (Await aw) w2) <> Hung) ->
  outcome (research env query w) <> Hung
  /\ length (log (research env query w)) <= 3.
Proof.
  intros Hcons Hstart Hawait.
  split; [ | apply research_log_short ].
  destruct (research_run_total env query w) as
    [exc0 w1 Hc | w1 Hc | obj w1 exc0 w2 Hc Hs | obj w1 w2 Hc Hs
    | obj w1 aw w2 r w3 Hc Hs Ha]; cbn [outcome].
  - discriminate.
  - rewrite Hc in Hcons. exact Hcons.
  - discriminate.
  - specialize (Hstart obj w1 Hc). rewrite Hs in Hstart. exact Hstart.
  - specialize (Hawait obj w1 aw w2 Hc Hs). rewrite Ha in Hawait.
    cbn [fst] in Hawait. destruct r; cbn; [ discriminate | discriminate | ].
    exact Hawait.
Qed.

(** The recording stand-in always answers, and [research] completes. *)
Lemma research_terminates_scenario :
  outcome (research StandIn.env (VStr "climate policy 2030") []) <> Hung
  /\ length (log (research StandIn.env (VStr "climate policy 2030") [])) <= 3.
Proof.
  apply (research_terminates StandIn.env (VStr "climate policy 2030") []).
  - cbn. discriminate.
  - intros obj w1 Hc. injection Hc as <- <-. cbn. discriminate.
  - intros obj w1 aw w2 Hc. injection Hc as <- <-.
    intros Hs. injection Hs as <- <-. cbn. discriminate.
Defined.

(** ** Separate invocations *)

Lemma research_constructs_afresh {World : Type}
    (env : action -> World -> result value * World) query w :
  constructs_afresh env query w.
Proof.
  unfold constructs_afresh.
  destruct (research_run_total env query w) as
    [e u Hc | u Hc | o u e v Hc Hs | o u v Hc Hs | o u a v r x Hc Hs Ha];
    (split; [ eexists; eexists; reflexivity | ]);
    intros receiver method; cbn; intros Hin; try contradiction;
    destruct Hin as [Hin | []]; injection Hin as <- _;
    rewrite Hc; reflexivity.
Qed.

(** C7. Invocations are independent.  [research] keeps nothing between
    calls: all an invocation can observe is what the dependency answers to
    its own three actions.  So two invocations for the same query, from
    any two worlds (for instance before and after other invocations), to
    which the dependency answers the same way, end in the same result.
    Each of them constructs its own dependency object first, and calls a
    method only on the object that it constructed itself. *)
Theorem research_invocations_independent {W1 W2 : Type}
    (env1 : action -> W1 -> result value * W1) (w1 : W1)
    (env2 : action -> W2 -> result value * W2) (w2 : W2)
    (query : value) :
  same_behaviour env1 w1 env2 w2 query ->
  outcome (research env1 query w1) = outcome (research env2 query w2)
  /\ constructs_afresh env1 query w1
  /\ constructs_afresh env2 query w2.
Proof.
  intros [Hcons Hrest].
  split; [ | split; apply research_constructs_afresh ].
  destruct (research_run_total env1 query w1) as
    [e1 u1 Hc1 | u1 Hc1 | o1 u1 e1 v1 Hc1 Hs1 | o1 u1 v1 Hc1 Hs1
    | o1 u1 a1 v1 r1 x1 Hc1 Hs1 Ha1];
  destruct (research_run_total env2 query w2) as
    [e2 u2 Hc2 | u2 Hc2 | o2 u2 e2 v2 Hc2 Hs2 | o2 u2 v2 Hc2 Hs2
    | o2 u2 a2 v2 r2 x2 Hc2 Hs2 Ha2];
  cbn [outcome];
  rewrite Hc1, Hc2 in Hcons; cbn in Hcons;
  try contradiction; try (subst; reflexivity);
  (destruct (Hrest o1 o2) as [Hstart Hawait];
   [ rewrite Hc1; reflexivity | rewrite Hc2; reflexivity | ]);
  rewrite Hc1, Hc2 in Hstart, Hawait; cbn [fst snd] in Hstart, Hawait;
  rewrite Hs1, Hs2 in Hstart, Hawait; cbn [fst snd alike] in Hstart, Hawait;
  try contradiction; try (subst; reflexivity).
  specialize (Hawait a1 a2 eq_refl eq_refl).
  rewrite Ha1, Ha2 in Hawait. cbn [fst] in Hawait. rewrite Hawait.
  reflexivity.
Qed.

(** The recording stand-in answers the query ["climate policy 2030"] the
    same way in a fresh world and after an invocation for another query,
    although it hands out another object; the two results are equal. *)
Lemma research_after_prior_invocation_scenario :
  world_after (research StandIn.env (VStr "renewable energy") [])
  = [[("query", VStr "renewable energy");
      ("report_type", VStr "research_report")]]
  /\ outcome (research StandIn.env (VStr "climate policy 2030") [])
     = outcome (research StandIn.env (VStr "climate policy 2030")
                  (world_after (research StandIn.env (VStr "renewable energy") []))).
Proof.
  split.
  - reflexivity.
  - apply (research_invocations_independent
             StandIn.env []
             StandIn.env
             (world_after (research StandIn.env (VStr "renewable energy") []))
             (VStr "climate policy 2030")).
    split.
    + exact I.
    + intros o1 o2 H1 H2. injection H1 as <-. injection H2 as <-.
      split.
      * exact I.
      * intros a1 a2 H1 H2. injection H1 as <-. injection H2 as <-.
        reflexivity.
Defined.

(** ** The module body *)

Lemma main_block_entry {World : Type}
    (env : action -> World -> result value * World) (w : World) :
  main_block env "__main__" w
  = Run (discard (fst (env startup w))) (snd (env startup w))
      [Performed startup (fst (env startup w))].
Proof.
  unfold_shim. cbn.
  destruct (env (Print "GPT Researcher MCP Server started") w) as [r w'].
  destruct r; reflexivity.
Qed.

Lemma main_block_guarded {World : Type}
    (env : action -> World -> result value * World)
    (name : string) (w : World) :
  name <> "__main__" ->
  main_block env name w = Run (Returned tt) w [].
Proof.
  intros Hname. unfold main_block.
  destruct (String.eqb_spec name "__main__") as [Heq | _].
  - contradiction.
  - reflexivity.
Qed.

Lemma module_body_run {World : Type}
    (env : action -> World -> result value * World)
    (name : string) (w : World) os_module w1 cls w2 :
  env (ImportModule "os") w = (Returned os_module, w1) ->
  env (ImportFrom "gpt_researcher" "GPTResearcher") w1 = (Returned cls, w2) ->
  module_body env name w
  = Run (outcome (main_block env name w2)) (world_after (main_block env name w2))
      (Performed (ImportModule "os") (Returned os_module)
       :: Performed (ImportFrom "gpt_researcher" "GPTResearcher") (Returned cls)
       :: log (main_block env name w2)).
Proof.
  intros Hos Hcls.
  unfold module_body, import, import_from, perform.
  cbn [bind ret Monad_M]. unfold bind_M.
  rewrite Hos. cbn. rewrite Hcls. cbn.
  destruct (outcome (main_block env name w2)); reflexivity.
Qed.

(** The module body when the first import gives no value. *)
Lemma module_body_first_import_fails {World : Type}
    (env : action -> World -> result value * World)
    (name : string) (w : World) :
  (forall v, fst (env (ImportModule "os") w) <> Returned v) ->
  module_body env name w
  = Run (discard (fst (env (ImportModule "os") w)))
      (snd (env (ImportModule "os") w))
      [Performed (ImportModule "os") (fst (env (ImportModule "os") w))].
Proof.
  intros Hno.
  unfold module_body, import, import_from, perform.
  cbn [bind ret Monad_M]. unfold bind_M.
  destruct (env (ImportModule "os") w) as [r1 w1]. cbn [fst snd] in *.
  destruct r1 as [v | exc | ].
  - exfalso. apply (Hno v). reflexivity.
  - reflexivity.
  - reflexivity.
Qed.

(** The module body when the second import gives no value. *)
Lemma module_body_second_import_fails {World : Type}
    (env : action -> World -> result value * World)
    (name : string) (w : World) os_module w1 :
  env (ImportModule "os") w = (Returned os_module, w1) ->
  (forall v,
     fst (env (ImportFrom "gpt_researcher" "GPTResearcher") w1)
     <> Returned v) ->
  module_body env name w
  = Run (discard (fst (env (ImportFrom "gpt_researcher" "GPTResearcher") w1)))
      (snd (env (ImportFrom "gpt_researcher" "GPTResearcher") w1))
      [Performed (ImportModule "os") (Returned os_module);
       Performed (ImportFrom "gpt_researcher" "GPTResearcher")
         (fst (env (ImportFrom "gpt_researcher" "GPTResearcher") w1))].
Proof.
  intros Hos Hno.
  unfold module_body, import, import_from, perform.
  cbn [bind ret Monad_M]. unfold bind_M.
  rewrite Hos. cbn.
  destruct (env (ImportFrom "gpt_researcher" "GPTResearcher") w1) as [r2 w2].
  cbn [fst snd] in *.
  destruct r2 as [v | exc | ].
  - exfalso. apply (Hno v). reflexivity.
  - reflexivity.
  - reflexivity.
Qed.

(** The module body stops at the first import that does not return, and
    otherwise goes on to the entry-point test. *)
Lemma module_body_cases {World : Type}
    (env : action -> World -> result value * World)
    (name : string) (w : World) :
  ((forall v, fst (env (ImportModule "os") w) <> Returned v)
   /\ log (module_body env name w)
      = [Performed (ImportModule "os") (fst (env (ImportModule "os") w))])
  \/ (exists os_module w1,
        env (ImportModule "os") w = (Returned os_module, w1)
        /\ (forall v,
              fst (env (ImportFrom "gpt_researcher" "GPTResearcher") w1)
              <> Returned v)
        /\ log (module_body env name w)
           = [Performed (ImportModule "os") (Returned os_module);
              Performed (ImportFrom "gpt_researcher" "GPTResearcher")
                (fst (env (ImportFrom "gpt_researcher" "GPTResearcher") w1))])
  \/ (exists os_module w1 cls w2,
        env (ImportModule "os") w = (Returned os_module, w1)
        /\ env (ImportFrom "gpt_researcher" "GPTResearcher") w1
           = (Returned cls, w2)).
Proof.
  destruct (env (ImportModule "os") w) as [r1 w1] eqn:Hos.
  destruct r1 as [os_module | exc | ].
  - destruct (env (ImportFrom "gpt_researcher" "GPTResearcher") w1)
      as [r2 w2] eqn:Hcls.
    destruct r2 as [cls | exc | ].
    + right. right. exists os_module, w1, cls, w2.
      split; first [ assumption | reflexivity ].
    + right. left. exists os_module, w1.
      assert (Hno : forall v,
                 fst (env (ImportFrom "gpt_researcher" "GPTResearcher") w1)
                 <> Returned v)
        by (intros v; rewrite Hcls; discriminate).
      split; [ reflexivity | split; [ exact Hno | ] ].
      rewrite (module_body_second_import_fails env name w _ _ Hos Hno).
      reflexivity.
    + right. left. exists os_module, w1.
      assert (Hno : forall v,
                 fst (env (ImportFrom "gpt_researcher" "GPTResearcher") w1)
                 <> Returned v)
        by (intros v; rewrite Hcls; discriminate).
      split; [ reflexivity | split; [ exact Hno | ] ].
      rewrite (module_body_second_import_fails env name w _ _ Hos Hno).
      reflexivity.
  - assert (Hno : forall v, fst (env (ImportModule "os") w) <> Returned v)
      by (intros v; rewrite Hos; discriminate).
    left. rewrite (module_body_first_import_fails env name w Hno).
    rewrite Hos. split; [ intros v; discriminate | reflexivity ].
  - assert (Hno : forall v, fst (env (ImportModule "os") w) <> Returned v)
      by (intros v; rewrite Hos; discriminate).
    left. rewrite (module_body_first_import_fails env name w Hno).
    rewrite Hos. split; [ intros v; discriminate | reflexivity ].
Qed.

(** Where the package [gpt_researcher] is missing, the second import
    raises and the module body ends there, before the entry-point test. *)
Lemma module_body_missing_package (name : string) (exc : value) :
  module_body (Scripted.env_missing_package exc) name tt
  = Run (Raised exc) tt
      [Performed (ImportModule "os") (Returned (VRef 0));
       Performed (ImportFrom "gpt_researcher" "GPTResearcher") (Raised exc)].
Proof.
  reflexivity.
Qed.

(** C4, as stated, fails: run as the entry point on a machine where the
    package [gpt_researcher] is missing, the module stops at its second
    import and never calls [print], so "it prints exactly one start-up
    string" does not hold of every direct execution. *)
Lemma entry_point_missing_package_prints_nothing :
  print_calls (log (module_body (Scripted.env_missing_package (VRef 7))
                      "__main__" tt)) = []
  /\ ~ (forall (env : action -> unit -> result value * unit) w,
          print_calls (log (module_body env "__main__" w))
          = ["GPT Researcher MCP Server started"]).
Proof.
  split.
  - reflexivity.
  - intros Hall.
    specialize (Hall (Scripted.env_missing_package (VRef 7)) tt).
    cbn in Hall. discriminate Hall.
Qed.

(** C4, amended.  Run as the entry point ([__name__] is ["__main__"]), the
    module never performs an action of [research].  Once its two imports
    have returned, it calls [print] exactly once, with the fixed start-up
    text, and does nothing else: the whole run is the two imports and that
    call, in the world [print] left, and it ends as the call ended, so a
    failure of [print] leaves the module as it was raised.  If an import
    does not return, the run ends at that import, with its answer, and
    [print] is not called. *)
Theorem entry_point_prints_startup_only {World : Type}
    (env : action -> World -> result value * World) (w : World) :
  filter is_research_event (log (module_body env "__main__" w)) = []
  /\ (forall os_module w1 cls w2,
        env (ImportModule "os") w = (Returned os_module, w1) ->
        env (ImportFrom "gpt_researcher" "GPTResearcher") w1
        = (Returned cls, w2) ->
        module_body env "__main__" w
        = Run (discard (fst (env startup w2))) (snd (env startup w2))
            [Performed (ImportModule "os") (Returned os_module);
             Performed (ImportFrom "gpt_researcher" "GPTResearcher")
               (Returned cls);
             Performed (Print "GPT Researcher MCP Server started")
               (fst (env startup w2))])
  /\ ((forall v, fst (env (ImportModule "os") w) <> Returned v) ->
      module_body env "__main__" w
      = Run (discard (fst (env (ImportModule "os") w)))
          (snd (env (ImportModule "os") w))
          [Performed (ImportModule "os") (fst (env (ImportModule "os") w))])
  /\ (forall os_module w1,
        env (ImportModule "os") w = (Returned os_module, w1) ->
        (forall v,
           fst (env (ImportFrom "gpt_researcher" "GPTResearcher") w1)
           <> Returned v) ->
        module_body env "__main__" w
        = Run (discard
                 (fst (env (ImportFrom "gpt_researcher" "GPTResearcher") w1)))
            (snd (env (ImportFrom "gpt_researcher" "GPTResearcher") w1))
            [Performed (ImportModule "os") (Returned os_module);
             Performed (ImportFrom "gpt_researcher" "GPTResearcher")
               (fst (env (ImportFrom "gpt_researcher" "GPTResearcher") w1))]).
Proof.
  split; [ | split; [ | split ] ].
  - destruct (module_body_cases env "__main__" w)
      as [[_ Hlog] | [[os_module [w1 [_ [_ Hlog]]]]
         | [os_module [w1 [cls [w2 [Hos Hcls]]]]]]].
    + rewrite Hlog. reflexivity.
    + rewrite Hlog. reflexivity.
    + rewrite (module_body_run env "__main__" w _ _ _ _ Hos Hcls).
      rewrite main_block_entry. reflexivity.
  - intros os_module w1 cls w2 Hos Hcls.
    rewrite (module_body_run env "__main__" w _ _ _ _ Hos Hcls).
    rewrite main_block_entry. reflexivity.
  - apply module_body_first_import_fails.
  - apply module_body_second_import_fails.
Qed.

(** Run as a script where both imports and [print] succeed: the run is the
    imports and the one call of [print] with the start-up text. *)
Lemma entry_point_scenario :
  module_body (Scripted.env (Returned (VRef 1)) (Returned (VRef 2))
                 (Returned (VStr "report")))
    "__main__" tt
  = Run (Returned tt) tt
      [Performed (ImportModule "os") (Returned (VRef 0));
       Performed (ImportFrom "gpt_researcher" "GPTResearcher")
         (Returned (VRef 0));
       Performed (Print "GPT Researcher MCP Server started")
         (Returned VNone)].
Proof.
  apply (proj1 (proj2
           (entry_point_prints_startup_only
              (Scripted.env (Returned (VRef 1)) (Returned (VRef 2))
                 (Returned (VStr "report")))
              tt))
           (VRef 0) tt (VRef 0) tt); reflexivity.
Defined.

(** C9. Imported rather than run ([__name__] is not ["__main__"]), the
    module prints nothing and performs no action of [research]: the
    [print] is behind the entry-point test, and all the module body does
    is its two imports, [os] first and then [GPTResearcher] (the second
    only if the first completes). *)
Theorem import_prints_nothing {World : Type}
    (env : action -> World -> result value * World)
    (name : string) (w : World) :
  name <> "__main__" ->
  print_calls (log (module_body env name w)) = []
  /\ filter is_research_event (log (module_body env name w)) = []
  /\ ((exists r1, log (module_body env name w)
                  = [Performed (ImportModule "os") r1])
      \/ (exists r1 r2,
            log (module_body env name w)
            = [Performed (ImportModule "os") r1;
               Performed (ImportFrom "gpt_researcher" "GPTResearcher") r2]))
  /\ (forall os_module w1 cls w2,
        env (ImportModule "os") w = (Returned os_module, w1) ->
        env (ImportFrom "gpt_researcher" "GPTResearcher") w1
        = (Returned cls, w2) ->
        module_body env name w
        = Run (Returned tt) w2
            [Performed (ImportModule "os") (Returned os_module);
             Performed (ImportFrom "gpt_researcher" "GPTResearcher")
               (Returned cls)]).
Proof.
  intros Hname.
  assert (Hlog :
    (exists r1, log (module_body env name w)
                = [Performed (ImportModule "os") r1])
    \/ (exists r1 r2,
          log (module_body env name w)
          = [Performed (ImportModule "os") r1;
             Performed (ImportFrom "gpt_researcher" "GPTResearcher") r2])).
  { destruct (module_body_cases env name w)
      as [[_ Hone] | [[os_module [w1 [_ [_ Htwo]]]]
         | [os_module [w1 [cls [w2 [Hos Hcls]]]]]]].
    - left. eexists. exact Hone.
    - right. eexists. eexists. exact Htwo.
    - right. rewrite (module_body_run env name w _ _ _ _ Hos Hcls).
      rewrite (main_block_guarded env name w2 Hname).
      eexists. eexists. reflexivity. }
  split; [ | split; [ | split ] ].
  - destruct Hlog as [[r1 ->] | [r1 [r2 ->]]]; reflexivity.
  - destruct Hlog as [[r1 ->] | [r1 [r2 ->]]]; reflexivity.
  - exact Hlog.
  - intros os_module w1 cls w2 Hos Hcls.
    rewrite (module_body_run env name w _ _ _ _ Hos Hcls).
    rewrite (main_block_guarded env name w2 Hname). reflexivity.
Qed.

(** Loaded under the name of its file, the module is silent. *)
Lemma import_scenario :
  "gpt-researcher-mcp" <> "__main__"
  /\ print_calls (log (module_body
                         (Scripted.env (Returned (VRef 1)) (Returned (VRef 2))
                            (Returned (VStr "report")))
                         "gpt-researcher-mcp" tt)) = [].
Proof.
  split.
  - discriminate.
  - apply (import_prints_nothing
             (Scripted.env (Returned (VRef 1)) (Returned (VRef 2))
                (Returned (VStr "report")))
             "gpt-researcher-mcp" tt).
    discriminate.
Defined.

(** ** Further properties of [research] *)

(** X1. [research] writes nothing to standard output and imports nothing:
    every action of an invocation is a call, a method call or an await on
    the dependency. *)
Theorem research_prints_nothing {World : Type}
    (env : action -> World -> result value * World) (query : value) (w : World) :
  print_calls (log (research env query w)) = []
  /\ forallb is_research_event (log (research env query w)) = true.
Proof.
  destruct (research_run_total env query w); split; reflexivity.
Qed.

(** X2. [research] has no result of its own: when an invocation returns
    [v], the construction and the call of [conduct_research] returned and
    [v] is what the await of that call's awaitable returned; the log is
    exactly these three actions. *)
Theorem research_result_comes_from_await {World : Type}
    (env : action -> World -> result value * World)
    (query : value) (w : World) (v : value) :
  outcome (research env query w) = Returned v ->
  exists obj aw,
    log (research env query w)
    = [Performed (construction query) (Returned obj);
       Performed (start obj) (Returned aw);
       Performed (Await aw) (Returned v)].
Proof.
  destruct (research_run_total env query w) as
    [exc0 w1 Hc | w1 Hc | obj w1 exc0 w2 Hc Hs | obj w1 w2 Hc Hs
    | obj w1 aw w2 r w3 Hc Hs Ha]; cbn [outcome log]; intros Hout;
    try discriminate Hout.
  destruct r as [v' | exc | ]; try discriminate Hout.
  injection Hout as ->. exists obj, aw. reflexivity.
Qed.

Lemma research_result_comes_from_await_scenario :
  exists obj aw,
    log (research StandIn.env (VStr "climate policy 2030") [])
    = [Performed (construction (VStr "climate policy 2030")) (Returned obj);
       Performed (start obj) (Returned aw);
       Performed (Await aw) (Returned (VStr "REPORT:climate policy 2030"))].
Proof.
  apply (research_result_comes_from_await StandIn.env
           (VStr "climate policy 2030") []
           (VStr "REPORT:climate policy 2030")).
  reflexivity.
Defined.

(** X4. The steps of [research] run in order and a step that gives no
    value ends the invocation.  If the construction does not return an
    object, the invocation ends in the world the constructor left, with
    the constructor's answer as it leaves a coroutine (a raised
    [StopIteration] becomes the interpreter's [RuntimeError]), and neither
    calls a method nor awaits. *)
Theorem research_stops_after_failed_construction {World : Type}
    (env : action -> World -> result value * World) (query : value) (w : World) :
  (forall obj, fst (env (construction query) w) <> Returned obj) ->
  research env query w
  = Run (coroutine_result (fst (env (construction query) w)))
      (snd (env (construction query) w))
      [Performed (construction query) (fst (env (construction query) w))]
  /\ method_calls (log (research env query w)) = []
  /\ awaits (log (research env query w)) = [].
Proof.
  intros Hno.
  destruct (env (construction query) w) as [rc w1] eqn:Hc.
  cbn [fst snd] in *.
  destruct rc as [obj | exc | ].
  - exfalso. apply (Hno obj). reflexivity.
  - rewrite (research_construct_raises env _ _ _ _ Hc).
    repeat split.
  - rewrite (research_construct_hangs env _ _ _ Hc).
    repeat split.
Qed.

(** A constructor that raises [StopIteration]: the invocation ends after
    the construction, raising the [RuntimeError] made from it. *)
Lemma research_stops_after_failed_construction_scenario :
  research (Scripted.env (Raised (VStopIteration VNone))
              (Returned (VRef 2)) (Returned (VStr "report")))
    (VStr "climate policy 2030") tt
  = Run (Raised (VRuntimeError "coroutine raised StopIteration"
                   (VStopIteration VNone)))
      tt
      [Performed (construction (VStr "climate policy 2030"))
         (Raised (VStopIteration VNone))].
Proof.
  apply (research_stops_after_failed_construction
           (Scripted.env (Raised (VStopIteration VNone)) (Returned (VRef 2))
              (Returned (VStr "report")))
           (VStr "climate policy 2030") tt).
  intros obj. cbn. discriminate.
Defined.

(** X5. If the call of [conduct_research] does not return an awaitable,
    the invocation ends in the world that call left, with that call's
    answer as it leaves a coroutine, and awaits nothing. *)
Theorem research_stops_after_failed_start {World : Type}
    (env : action -> World -> result value * World)
    (query : value) (w : World) obj w1 :
  env (construction query) w = (Returned obj, w1) ->
  (forall aw, fst (env (start obj) w1) <> Returned aw) ->
  research env query w
  = Run (coroutine_result (fst (env (start obj) w1))) (snd (env (start obj) w1))
      [Performed (construction query) (Returned obj);
       Performed (start obj) (fst (env (start obj) w1))]
  /\ awaits (log (research env query w)) = [].
Proof.
  intros Hc Hno.
  destruct (env (start obj) w1) as [rs w2] eqn:Hs.
  cbn [fst snd] in *.
  destruct rs as [aw | exc | ].
  - exfalso. apply (Hno aw). reflexivity.
  - rewrite (research_start_raises env _ _ _ _ _ _ Hc Hs).
    split; reflexivity.
  - rewrite (research_start_hangs env _ _ _ _ _ Hc Hs).
    split; reflexivity.
Qed.

Lemma research_stops_after_failed_start_scenario :
  research (Scripted.env (Returned (VRef 1)) (Raised (VStopIteration VNone))
              (Returned (VStr "report")))
    (VStr "climate policy 2030") tt
  = Run (Raised (VRuntimeError "coroutine raised StopIteration"
                   (VStopIteration VNone)))
      tt
      [Performed (construction (VStr "climate policy 2030")) (Returned (VRef 1));
       Performed (start (VRef 1)) (Raised (VStopIteration VNone))].
Proof.
  apply (research_stops_after_failed_start
           (Scripted.env (Returned (VRef 1)) (Raised (VStopIteration VNone))
              (Returned (VStr "report")))
           (VStr "climate policy 2030") tt (VRef 1) tt).
  - reflexivity.
  - intros aw. cbn. discriminate.
Defined.

(** X6. [research] does not look at the class of its argument: a query
    that is [None], a number or an object is handed to the constructor as
    it is, under the keyword [query], like a text.  The construction with
    it is the first action, put to the dependency in the world the
    invocation started from, and the recording stand-in, started from an
    empty record, ends with exactly that query on record. *)
Theorem research_passes_any_query {World : Type}
    (env : action -> World -> result value * World) (query : value) (w : World) :
  begins_with_construction env query w
  /\ calls (log (research env query w))
     = [("GPTResearcher", [],
         [("query", query); ("report_type", VStr "research_report")])]
  /\ world_after (research StandIn.env query [])
     = [[("query", query); ("report_type", VStr "research_report")]].
Proof.
  split; [ apply research_begins_with_construction | ].
  split.
  - destruct (research_run_total env query w); reflexivity.
  - destruct query; reflexivity.
Qed.

(** ** Further properties of the module body *)

(** X7. A failing import of [GPTResearcher] ends the module body: the
    exception leaves the module as it was raised, nothing is printed, and
    this is so under every [__name__], the entry point included. *)
Theorem module_body_import_failure_propagates {World : Type}
    (env : action -> World -> result value * World)
    (name : string) (w : World) os_module w1 exc w2 :
  env (ImportModule "os") w = (Returned os_module, w1) ->
  env (ImportFrom "gpt_researcher" "GPTResearcher") w1 = (Raised exc, w2) ->
  module_body env name w
  = Run (Raised exc) w2
      [Performed (ImportModule "os") (Returned os_module);
       Performed (ImportFrom "gpt_researcher" "GPTResearcher") (Raised exc)]
  /\ print_calls (log (module_body env name w)) = [].
Proof.
  intros Hos Hcls.
  rewrite (module_body_second_import_fails env name w _ _ Hos).
  - rewrite Hcls. split; reflexivity.
  - intros v. rewrite Hcls. discriminate.
Qed.

Lemma module_body_import_failure_scenario :
  print_calls (log (module_body (Scripted.env_missing_package (VRef 7))
                      "__main__" tt)) = [].
Proof.
  apply (module_body_import_failure_propagates
           (Scripted.env_missing_package (VRef 7)) "__main__" tt
           (VRef 0) tt (VRef 7) tt); reflexivity.
Defined.

(** X8. The module body completes normally exactly when both imports
    return and, where [__name__] is ["__main__"], the call of [print]
    returns: it swallows no failure of an import or of [print], and has no
    other way to fail. *)
Theorem module_body_returns_iff_steps_return {World : Type}
    (env : action -> World -> result value * World)
    (name : string) (w : World) :
  outcome (module_body env name w) = Returned tt
  <-> exists os_module w1 cls w2,
        env (ImportModule "os") w = (Returned os_module, w1)
        /\ env (ImportFrom "gpt_researcher" "GPTResearcher") w1
           = (Returned cls, w2)
        /\ (name = "__main__" -> exists v, fst (env startup w2) = Returned v).
Proof.
  split.
  - intros Hout.
    destruct (module_body_cases env name w)
      as [[Hno _] | [[os_module [w1 [Hos [Hno _]]]]
         | [os_module [w1 [cls [w2 [Hos Hcls]]]]]]].
    + rewrite (module_body_first_import_fails env name w Hno) in Hout.
      cbn [outcome] in Hout.
      destruct (fst (env (ImportModule "os") w)) as [v | exc | ];
        try discriminate Hout.
      exfalso. apply (Hno v). reflexivity.
    + rewrite (module_body_second_import_fails env name w _ _ Hos Hno) in Hout.
      cbn [outcome] in Hout.
      destruct (fst (env (ImportFrom "gpt_researcher" "GPTResearcher") w1))
        as [v | exc | ]; try discriminate Hout.
      exfalso. apply (Hno v). reflexivity.
    + exists os_module, w1, cls, w2.
      split; [ exact Hos | split; [ exact Hcls | ] ].
      intros ->.
      rewrite (module_body_run env "__main__" w _ _ _ _ Hos Hcls) in Hout.
      rewrite main_block_entry in Hout. cbn [outcome] in Hout.
      destruct (fst (env startup w2)) as [v | exc | ];
        try discriminate Hout.
      exists v. reflexivity.
  - intros [os_module [w1 [cls [w2 [Hos [Hcls Hprint]]]]]].
    rewrite (module_body_run env name w _ _ _ _ Hos Hcls). cbn [outcome].
    destruct (String.eqb_spec name "__main__") as [-> | Hname].
    + destruct (Hprint eq_refl) as [v Hv].
      rewrite main_block_entry. cbn [outcome]. rewrite Hv. reflexivity.
    + rewrite (main_block_guarded env name w2 Hname). reflexivity.
Qed.

